(** * The GEOSgcm package recipe (geosgcm/package.py)

    A shallow embedding of the three methods of class [Geosgcm]:
    [cmake_args], [clone_mepo] and [setup_build_environment], with the
    framework helpers they call modelled next to them, followed by the
    properties of the configuration resolver, the pre-build hook and the
    environment patch. *)

From stdpp Require Import gmap strings list fin_maps.
From Stdlib Require Import ZArith Ascii String Lia.
From Stdlib Require DecimalString DecimalN.

Local Open Scope string_scope.
Local Open Scope list_scope.
Local Open Scope Z_scope.

(** ** Exceptions and the result monad *)

(** The Python exceptions the recipe can meet.  [InstallError] is the one
    the recipe raises itself; the others come from the builtins and helpers
    it calls ([int], indexing, item lookup, a failing external process). *)
Inductive exn : Type :=
  | InstallError (msg : string)
  | ValueError
  | KeyError (key : string)
  | IndexError
  | ProcessError (exe : string).

Inductive result (A : Type) : Type :=
  | Ok (a : A)
  | Raise (e : exn).
Arguments Ok {A} a.
Arguments Raise {A} e.

Definition bind {A B : Type} (r : result A) (k : A -> result B) : result B :=
  match r with
  | Ok a => k a
  | Raise e => Raise e
  end.

Notation "'let*' x ':=' r 'in' k" := (bind r (fun x => k))
  (at level 10, x name, r at level 100, k at level 200).

Definition is_ok {A : Type} (r : result A) : bool :=
  match r with Ok _ => true | Raise _ => false end.

(** ** Python string builtins used by the version probe *)

(** [str.split(sep)] for a one-character separator: always at least one
    component, empty components kept. *)
Fixpoint split (sep : ascii) (s : string) : list string :=
  match s with
  | EmptyString => [EmptyString]
  | String c s' =>
      if Ascii.eqb c sep then EmptyString :: split sep s'
      else match split sep s' with
           | h :: t => String c h :: t
           | [] => [String c EmptyString]
           end
  end.

(** [l[0]] *)
Definition index0 {A : Type} (l : list A) : result A :=
  match l !! 0%nat with
  | Some x => Ok x
  | None => Raise IndexError
  end.

(** White space as [int] skips it around a numeral (ASCII range). *)
Definition is_space (c : ascii) : bool :=
  let n := nat_of_ascii c in
  ((9 <=? n)%nat && (n <=? 13)%nat)
  || ((28 <=? n)%nat && (n <=? 32)%nat).

Definition digit_value (c : ascii) : option Z :=
  let n := nat_of_ascii c in
  if ((48 <=? n)%nat && (n <=? 57)%nat) then Some (Z.of_nat n - 48) else None.

Fixpoint lstrip (s : string) : string :=
  match s with
  | String c s' => if is_space c then lstrip s' else s
  | EmptyString => EmptyString
  end.

Fixpoint rstrip (s : string) : string :=
  match s with
  | EmptyString => EmptyString
  | String c s' =>
      match rstrip s' with
      | EmptyString => if is_space c then EmptyString else String c EmptyString
      | r => String c r
      end
  end.

Definition strip (s : string) : string := rstrip (lstrip s).

(** Decimal digits with single underscores allowed between two digits;
    [after_digit] tells whether the previous character was a digit. *)
Fixpoint digits_value (after_digit : bool) (acc : Z) (s : string) : option Z :=
  match s with
  | EmptyString => if after_digit then Some acc else None
  | String c s' =>
      match digit_value c with
      | Some d => digits_value true (10 * acc + d) s'
      | None =>
          if Ascii.eqb c "_"%char && after_digit
          then digits_value false acc s'
          else None
      end
  end.

(** [int(s)] on a string, base ten (ASCII range): surrounding white space,
    an optional sign, then the digits; anything else is a [ValueError]. *)
Definition int (s : string) : result Z :=
  let body :=
    match strip s with
    | String "+"%char r => digits_value false 0 r
    | String "-"%char r => Z.opp <$> digits_value false 0 r
    | t => digits_value false 0 t
    end in
  match body with
  | Some v => Ok v
  | None => Raise ValueError
  end.

(** [sep.join(l)] *)
Definition join (sep : string) (l : list string) : string := String.concat sep l.

(** [os.path.join(a, b)] for a relative [b]. *)
Fixpoint ends_with_slash (a : string) : bool :=
  match a with
  | EmptyString => false
  | String c EmptyString => Ascii.eqb c "/"%char
  | String _ a' => ends_with_slash a'
  end.

Definition path_join (a b : string) : string :=
  match a with
  | EmptyString => b
  | _ => if ends_with_slash a then a +:+ b else a +:+ "/" +:+ b
  end.

(** ** Data model *)

(** The values of the [build_type] variant (its [values=] tuple). *)
Inductive BuildType : Type := Debug | Release | Aggressive.

Definition build_type_name (b : BuildType) : string :=
  match b with
  | Debug => "Debug"
  | Release => "Release"
  | Aggressive => "Aggressive"
  end.

(** A Python value as the recipe passes it around: a boolean or a string. *)
Inductive value : Type :=
  | VBool (b : bool)
  | VStr (s : string).

(** The five [variant(...)] declarations of the class. *)
Record VariantSet : Type := {
  debug : bool;
  f2py : bool;
  extdata2g : bool;
  develop : bool;
  build_type : BuildType
}.

(** [spec.variants[name].value]; [None] for a name that was not declared. *)
Definition variants_get (v : VariantSet) (name : string) : option value :=
  if String.eqb name "debug" then Some (VBool (debug v))
  else if String.eqb name "f2py" then Some (VBool (f2py v))
  else if String.eqb name "extdata2g" then Some (VBool (extdata2g v))
  else if String.eqb name "develop" then Some (VBool (develop v))
  else if String.eqb name "build_type" then Some (VStr (build_type_name (build_type v)))
  else None.

(** [self.compiler]: its name, its major version and the path of its
    Fortran compiler. *)
Record Compiler : Type := {
  name : string;
  major : Z;
  fc : string
}.

(** Modelled from the spec: the concretized spec is framework data that this
    file only reads.  Section 3 of the specification describes the
    DependencySelection as identifying which concrete implementation
    satisfies each abstract dependency requirement; the only abstract
    requirement the class declares is [mpi], so the selection is the name of
    the package chosen for it, together with the install prefix and the
    command of every node. *)
Record Spec : Type := {
  variants : VariantSet;
  mpi_provider : string;
  install_prefix : string -> string;
  command_path : string -> string
}.

Record Package : Type := {
  spec : Spec;
  compiler : Compiler;
  stage_source_path : string
}.

(** The [depends_on(...)] declarations of the class, [mpi] apart, with the
    [when=] conditions evaluated: the [esmf] lines name one package under
    both values of [debug], and [llvm-openmp] is required for apple-clang
    15 and newer. *)
Definition depends_on (c : Compiler) : list string :=
  ["cmake"; "ecbuild"; "python"; "py-pyyaml"; "py-numpy"; "perl";
   "hdf5"; "netcdf-c"; "netcdf-fortran"; "esmf";
   "gftl"; "gftl-shared"; "pflogger"; "fargparse"]
  ++ (if String.eqb (name c) "apple-clang" && (15 <=? major c)
      then ["llvm-openmp"] else [])
  ++ ["mepo"].

(** The packages of the dependency selection: the provider chosen for [mpi]
    and the packages required by name. *)
Definition nodes (p : Package) : list string :=
  mpi_provider (spec p) :: depends_on (compiler p).

(** A spec constraint; the recipe only uses the dependency form [^name]. *)
Inductive constraint : Type :=
  | Dep (name : string).

(** Modelled from the spec: [Spec.satisfies] is framework code.  The
    constraint [^name] holds when a package of that name is in the
    dependency selection. *)
Definition satisfies (p : Package) (c : constraint) : bool :=
  match c with
  | Dep n => existsb (String.eqb n) (nodes p)
  end.

(** A node as [spec[name]] returns it, with its [prefix] and [command]
    attributes. *)
Record Node : Type := {
  node_name : string;
  prefix : string;
  command : string
}.

(** Modelled from the spec: [spec[name]] is framework code; it returns the
    node of that name and raises [KeyError] when the selection has none. *)
Definition spec_getitem (p : Package) (n : string) : result Node :=
  if existsb (String.eqb n) (nodes p)
  then Ok {| node_name := n;
             prefix := install_prefix (spec p) n;
             command := command_path (spec p) n |}
  else Raise (KeyError n).

(** Modelled from the spec: [prefix.attr] is an attribute of the
    framework's prefix object.  Section 4.1 of the specification calls
    [prefix.cmake] of esmf the dependency-provided configuration-module
    path: the directory [attr] under the prefix. *)
Definition prefix_attr (pre attr : string) : string := path_join pre attr.

(** Modelled from the spec: [define] and [define_from_variant] belong to the
    CMake builder of the framework.  The glossary of the specification calls
    a define a key/value pair forwarded to the native build configuration
    tool, and the BuildDirective an ordered sequence of them. *)
Record Define : Type := {
  cmake_var : string;
  define_value : value
}.

Definition define (var : string) (v : value) : Define :=
  {| cmake_var := var; define_value := v |}.

Definition define_from_variant (p : Package) (var variant : string) : result Define :=
  match variants_get (variants (spec p)) variant with
  | Some v => Ok (define var v)
  | None => Raise (KeyError variant)
  end.

(** ** The configuration resolver: [cmake_args] *)

Section Resolver.

(** [spack.compiler.get_compiler_version_output(path, arg)] runs the
    compiler at [path] with [arg] and returns what it prints. *)
Variable get_compiler_version_output : string -> string -> string.

(** Lines 102-106: the major version of the Fortran compiler. *)
Definition gfortran_major_ver (c : Compiler) : result Z :=
  let* head := index0 (split "."%char
                         (get_compiler_version_output (fc c) "-dumpversion")) in
  int head.

Definition gcc_family : list string := ["gcc"; "clang"; "apple-clang"].

(** Lines 98-109: the compatibility flags for gfortran. *)
Definition fflags (c : Compiler) : result (list string) :=
  let fflags := [] in
  if existsb (String.eqb (name c)) gcc_family then
    let fflags := fflags ++ ["-ffree-line-length-none"] in
    let* gfortran_major_ver := gfortran_major_ver c in
    if 10 <=? gfortran_major_ver then
      let fflags := fflags ++ ["-fallow-invalid-boz"] in
      let fflags := fflags ++ ["-fallow-argument-mismatch"] in
      Ok fflags
    else Ok fflags
  else Ok fflags.

(** Lines 125-136: the if/elif chain appending the MPI stack. *)
Definition append_mpi_stack (p : Package) (args : list Define) : result (list Define) :=
  if satisfies p (Dep "mpich") then
    Ok (args ++ [define "MPI_STACK" (VStr "mpich")])
  else if satisfies p (Dep "openmpi") then
    Ok (args ++ [define "MPI_STACK" (VStr "openmpi")])
  else if satisfies p (Dep "intel-oneapi-mpi") then
    Ok (args ++ [define "MPI_STACK" (VStr "intelmpi")])
  else if satisfies p (Dep "mvapich") then
    Ok (args ++ [define "MPI_STACK" (VStr "mvapich")])
  else if satisfies p (Dep "mpt") then
    Ok (args ++ [define "MPI_STACK" (VStr "mpt")])
  else Raise (InstallError "Unsupported MPI stack").

Definition cmake_args (p : Package) : result (list Define) :=
  let* use_f2py := define_from_variant p "USE_F2PY" "f2py" in
  let* use_extdata2g := define_from_variant p "USE_EXTDATA2G" "extdata2g" in
  let* esmf := spec_getitem p "esmf" in
  let args :=
    [ use_f2py;
      use_extdata2g;
      define "CMAKE_MODULE_PATH" (VStr (prefix_attr (prefix esmf) "cmake")) ] in
  let* fflags := fflags (compiler p) in
  let args :=
    match fflags with
    | [] => args
    | _ :: _ => args ++ [define "CMAKE_Fortran_FLAGS" (VStr (join " " fflags))]
    end in
  append_mpi_stack p args.

End Resolver.

(** ** The pre-build hook: [clone_mepo] *)

(** What the build process does to the outside world: the external
    commands it runs, each with its arguments and the directory it runs in,
    and the invocation of the configuration tool with its defines. *)
Inductive event : Type :=
  | Exec (exe : string) (args : list string) (dir : string)
  | Configure (defines : list Define).

(** The state of the build process: its working directory and the trace
    of what it has run so far. *)
Record Process : Type := {
  cwd : string;
  trace : list event
}.

(** Computations of the build process: they may change the state and may
    raise; the state reached is kept when they raise. *)
Definition M (A : Type) : Type := Process -> result A * Process.

Definition ret {A : Type} (a : A) : M A := fun st => (Ok a, st).

Definition lift {A : Type} (r : result A) : M A := fun st => (r, st).

Definition bindM {A B : Type} (m : M A) (k : A -> M B) : M B :=
  fun st =>
    match m st with
    | (Ok a, st') => k a st'
    | (Raise e, st') => (Raise e, st')
    end.

Notation "'do' x '<-' m ';' k" := (bindM m (fun x => k))
  (at level 10, x name, m at level 100, k at level 200).

(** [os.chdir(d)] *)
Definition chdir (d : string) : M unit :=
  fun st => (Ok tt, {| cwd := d; trace := trace st |}).

(** Modelled from the spec: [working_dir] is a context manager of the
    framework.  Section 6 of the specification has the clone tool run with
    the working directory set to the checked-out source tree: the manager
    enters [dirname], runs the body, and returns to the original directory
    whether or not the body raised. *)
Definition working_dir {A : Type} (dirname : string) (body : M A) : M A :=
  fun st =>
    let orig_dir := cwd st in
    let (_, st1) := chdir dirname st in
    let (r, st2) := body st1 in
    let (_, st3) := chdir orig_dir st2 in
    (r, st3).

Section Hook.

(** The exit status of an external command run with the given arguments
    in the given directory. *)
Variable exit_status : string -> list string -> string -> Z.
Variable get_compiler_version_output : string -> string -> string.

(** Modelled from the spec: calling an [Executable] of the framework.
    Section 6 of the specification observes only the exit status of the
    tool, and section 7 lets a non-zero status abort the build: the
    command runs in the current directory, and a non-zero exit status
    raises [ProcessError]. *)
Definition call (exe : string) (args : list string) : M unit :=
  fun st =>
    let st' := {| cwd := cwd st; trace := trace st ++ [Exec exe args (cwd st)] |} in
    if exit_status exe args (cwd st) =? 0 then (Ok tt, st')
    else (Raise (ProcessError exe), st').

Definition clone_mepo (p : Package) : M unit :=
  working_dir (stage_source_path p)
    (do mepo_node <- lift (spec_getitem p "mepo");
     let mepo := command mepo_node in
     call mepo ["clone"; "--partial=blobless"]).

(** The [@run_before("cmake")] decoration of [clone_mepo]. *)
Definition run_before : list (string * (Package -> M unit)) :=
  [("cmake", clone_mepo)].

(** Modelled from the spec: the phase runner is framework code.  Section
    5 of the specification orders the pipeline as clone, then resolve the
    configuration flags, then invoke the build tool, and any failure
    aborts what follows.  The configuration phase resolves [cmake_args]
    and hands the defines to the configuration tool. *)
Definition cmake (p : Package) : M unit :=
  do args <- lift (cmake_args get_compiler_version_output p);
  fun st => (Ok tt, {| cwd := cwd st; trace := trace st ++ [Configure args] |}).

Fixpoint run_callbacks (phase : string) (cbs : list (string * (Package -> M unit)))
    (p : Package) : M unit :=
  match cbs with
  | [] => ret tt
  | (ph, cb) :: rest =>
      if String.eqb ph phase
      then do _u <- cb p; run_callbacks phase rest p
      else run_callbacks phase rest p
  end.

Definition execute_cmake_phase (p : Package) : M unit :=
  do _u <- run_callbacks "cmake" run_before p;
  cmake p.

End Hook.

(** ** The environment patch: [setup_build_environment] *)

(** Modelled from the spec: the [env] argument is an object of the
    framework.  Section 3 of the specification describes the
    EnvironmentPatch as named unset/set operations applied to the process
    environment of the build step, and section 4.3 says that unsetting a
    variable removes it whether or not it was set. *)
Inductive env_op : Type :=
  | SetEnv (var val : string)
  | UnsetEnv (var : string).

Definition unset (env : list env_op) (var : string) : list env_op :=
  env ++ [UnsetEnv var].

Definition execute (environ : gmap string string) (op : env_op) : gmap string string :=
  match op with
  | SetEnv var val => <[var := val]> environ
  | UnsetEnv var => delete var environ
  end.

Definition apply_modifications (env : list env_op) (environ : gmap string string)
    : gmap string string :=
  foldl execute environ env.

Definition setup_build_environment (p : Package) (env : list env_op) : list env_op :=
  unset env "BASEDIR".

(** ** Vocabulary of the properties *)

(** The MPI stacks of the comment above the if/elif chain (lines 119-123),
    each with the package the chain tests for and the identifier it passes
    to CMake. *)
Inductive MpiStack : Type := MPICH | OpenMPI | IntelMPI | MVAPICH | HPE_MPT.

Definition stack_package (m : MpiStack) : string :=
  match m with
  | MPICH => "mpich"
  | OpenMPI => "openmpi"
  | IntelMPI => "intel-oneapi-mpi"
  | MVAPICH => "mvapich"
  | HPE_MPT => "mpt"
  end.

Definition stack_identifier (m : MpiStack) : string :=
  match m with
  | MPICH => "mpich"
  | OpenMPI => "openmpi"
  | IntelMPI => "intelmpi"
  | MVAPICH => "mvapich"
  | HPE_MPT => "mpt"
  end.

Definition all_stacks : list MpiStack := [MPICH; OpenMPI; IntelMPI; MVAPICH; HPE_MPT].

(** The provider of the dependency selection is one of the five stacks. *)
Definition supported_mpi (p : Package) : bool :=
  existsb (fun m => String.eqb (stack_package m) (mpi_provider (spec p))) all_stacks.

(** The compiler identity is in the GCC-compatible family. *)
Definition in_gcc_family (c : Compiler) : bool :=
  existsb (String.eqb (name c)) gcc_family.

(** The version probe yields a major version number whenever the recipe
    consults it. *)
Definition probe_ok (gcvo : string -> string -> string) (c : Compiler) : bool :=
  if in_gcc_family c then is_ok (gfortran_major_ver gcvo c) else true.

(** The values of the defines of a directive that carry a given name, in
    order. *)
Definition values_of (var : string) (args : list Define) : list value :=
  map define_value (List.filter (fun d => String.eqb (cmake_var d) var) args).

(** The three defines every directive starts with. *)
Definition leading_defines (p : Package) : list Define :=
  [ define "USE_F2PY" (VBool (f2py (variants (spec p))));
    define "USE_EXTDATA2G" (VBool (extdata2g (variants (spec p))));
    define "CMAKE_MODULE_PATH"
      (VStr (path_join (install_prefix (spec p) "esmf") "cmake")) ].

(** The slot of the compiler flags: one define when there are flags. *)
Definition flags_slot (fl : list string) : list Define :=
  match fl with
  | [] => []
  | _ :: _ => [define "CMAKE_Fortran_FLAGS" (VStr (join " " fl))]
  end.

(** The number of external commands in a trace. *)
Definition exec_count (tr : list event) : nat :=
  List.length (List.filter (fun e => match e with Exec _ _ _ => true | Configure _ => false end) tr).

Definition line_length_flag : string := "-ffree-line-length-none".
Definition boz_flag : string := "-fallow-invalid-boz".
Definition mismatch_flag : string := "-fallow-argument-mismatch".

(** ** Sample inputs *)

Definition default_variants : VariantSet :=
  {| debug := false; f2py := false; extdata2g := true; develop := false;
     build_type := Release |}.

Definition sample_spec (provider : string) : Spec :=
  {| variants := default_variants;
     mpi_provider := provider;
     install_prefix := fun n => "/opt/spack/" +:+ n;
     command_path := fun n => "/opt/spack/" +:+ n +:+ "/bin/" +:+ n |}.

Definition sample_package (compiler_name provider : string) : Package :=
  {| spec := sample_spec provider;
     compiler := {| name := compiler_name; major := 11; fc := "/usr/bin/gfortran" |};
     stage_source_path := "/tmp/stage/spack-src" |}.

(** Version probes printing a fixed text. *)
Definition prints (out : string) : string -> string -> string := fun _ _ => out.

(** The directive expected for gcc with gfortran 11 and Open MPI. *)
Definition sample_directive : list Define :=
  [ define "USE_F2PY" (VBool false);
    define "USE_EXTDATA2G" (VBool true);
    define "CMAKE_MODULE_PATH" (VStr "/opt/spack/esmf/cmake");
    define "CMAKE_Fortran_FLAGS"
      (VStr "-ffree-line-length-none -fallow-invalid-boz -fallow-argument-mismatch");
    define "MPI_STACK" (VStr "openmpi") ].

Definition initial_process : Process := {| cwd := "/home/user"; trace := [] |}.

(** ** Vocabulary of the further properties *)

(** The string holds only white space. *)
Fixpoint blank (s : string) : bool :=
  match s with
  | EmptyString => true
  | String c s' => is_space c && blank s'
  end.

(** The character does not occur in the string. *)
Fixpoint no_char (sep : ascii) (s : string) : bool :=
  match s with
  | EmptyString => true
  | String c s' => negb (Ascii.eqb c sep) && no_char sep s'
  end.

(** The string holds only decimal digits. *)
Fixpoint all_digits (s : string) : bool :=
  match s with
  | EmptyString => true
  | String c s' =>
      match digit_value c with
      | Some _ => all_digits s'
      | None => false
      end
  end.


(** The variable an operation of the environment patch acts on. *)
Definition op_var (op : env_op) : string :=
  match op with
  | SetEnv var _ => var
  | UnsetEnv var => var
  end.

(** A second sample package: other values for the variants [debug],
    [develop] and [build_type], another stage, another compiler version. *)
Definition debug_package (compiler_name provider : string) : Package :=
  {| spec :=
       {| variants := {| debug := true; f2py := false; extdata2g := true;
                         develop := true; build_type := Aggressive |};
          mpi_provider := provider;
          install_prefix := fun n => "/opt/spack/" +:+ n;
          command_path := fun n => "/opt/spack/" +:+ n +:+ "/bin/" +:+ n |};
     compiler := {| name := compiler_name; major := 15; fc := "/usr/bin/gfortran" |};
     stage_source_path := "/scratch/stage/spack-src" |}.


(** ** Helper lemmas *)

Lemma split_not_nil sep s : split sep s <> [].
Proof.
  destruct s as [|c s]; simpl; [discriminate|].
  destruct (Ascii.eqb c sep); [discriminate|].
  destruct (split sep s); discriminate.
Qed.

Lemma index0_split sep s : exists h, index0 (split sep s) = Ok h.
Proof.
  pose proof (split_not_nil sep s) as Hne.
  destruct (split sep s) as [|h t]; [congruence|].
  exists h. reflexivity.
Qed.

Lemma int_raises s e : int s = Raise e -> e = ValueError.
Proof.
  unfold int. intros H.
  repeat match type of H with
         | context [match ?x with _ => _ end] => destruct x
         end; congruence.
Qed.

Section ResolverFacts.

Variable gcvo : string -> string -> string.

Lemma gfortran_major_ver_raises c e :
  gfortran_major_ver gcvo c = Raise e -> e = ValueError.
Proof.
  unfold gfortran_major_ver.
  destruct (index0_split "."%char (gcvo (fc c) "-dumpversion")) as [h ->].
  simpl. apply int_raises.
Qed.

Lemma fflags_unfold c :
  fflags gcvo c =
    if in_gcc_family c then
      let* v := gfortran_major_ver gcvo c in
      Ok (if 10 <=? v
          then [line_length_flag; boz_flag; mismatch_flag]
          else [line_length_flag])
    else Ok [].
Proof.
  unfold fflags, in_gcc_family.
  destruct (existsb _ gcc_family); [|reflexivity].
  destruct (gfortran_major_ver gcvo c) as [v|e]; simpl; [|reflexivity].
  destruct (10 <=? v); reflexivity.
Qed.

Lemma fflags_ok_iff c : is_ok (fflags gcvo c) = probe_ok gcvo c.
Proof.
  rewrite fflags_unfold. unfold probe_ok.
  destruct (in_gcc_family c); [|reflexivity].
  destruct (gfortran_major_ver gcvo c); reflexivity.
Qed.

Lemma esmf_in_nodes p : existsb (String.eqb "esmf") (nodes p) = true.
Proof.
  apply existsb_exists. exists "esmf". split; [|reflexivity].
  unfold nodes, depends_on. simpl. tauto.
Qed.

Lemma mepo_in_nodes p : existsb (String.eqb "mepo") (nodes p) = true.
Proof.
  apply existsb_exists. exists "mepo". split; [|reflexivity].
  unfold nodes, depends_on. right.
  apply in_or_app. right. apply in_or_app. right. left. reflexivity.
Qed.

Lemma satisfies_stack p m :
  satisfies p (Dep (stack_package m)) =
    String.eqb (stack_package m) (mpi_provider (spec p)).
Proof.
  unfold satisfies, nodes, depends_on.
  destruct (String.eqb (name (compiler p)) "apple-clang" && (15 <=? major (compiler p)));
    destruct m; simpl; rewrite ?orb_false_r; reflexivity.
Qed.

(** Rewrites the five tests of the if/elif chain into comparisons with
    the provider. *)
Ltac resolve_chain p :=
  let rew m :=
    (let H := fresh in
     pose proof (satisfies_stack p m) as H;
     cbn [stack_package] in H; rewrite H; clear H) in
  rew MPICH; rew OpenMPI; rew IntelMPI; rew MVAPICH; rew HPE_MPT.

Lemma cmake_args_unfold p :
  cmake_args gcvo p =
    let* fl := fflags gcvo (compiler p) in
    append_mpi_stack p (leading_defines p ++ flags_slot fl).
Proof.
  unfold cmake_args, define_from_variant, spec_getitem.
  rewrite esmf_in_nodes. simpl.
  destruct (fflags gcvo (compiler p)) as [[|f fl]|e]; reflexivity.
Qed.

Lemma append_mpi_stack_supported p m args :
  mpi_provider (spec p) = stack_package m ->
  append_mpi_stack p args =
    Ok (args ++ [define "MPI_STACK" (VStr (stack_identifier m))]).
Proof.
  intros Hm. unfold append_mpi_stack.
  resolve_chain p.
  rewrite Hm. destruct m; reflexivity.
Qed.

Lemma supported_mpi_true p :
  supported_mpi p = true <-> exists m, mpi_provider (spec p) = stack_package m.
Proof.
  unfold supported_mpi. rewrite existsb_exists. split.
  - intros (m & _ & Hm). exists m. symmetry. by apply String.eqb_eq.
  - intros (m & Hm). exists m. split.
    + destruct m; simpl; tauto.
    + apply String.eqb_eq. by symmetry.
Qed.

Lemma append_mpi_stack_unsupported p args :
  supported_mpi p = false ->
  append_mpi_stack p args = Raise (InstallError "Unsupported MPI stack").
Proof.
  intros Hm. unfold append_mpi_stack.
  resolve_chain p.
  unfold supported_mpi, all_stacks in Hm. cbn [existsb stack_package] in Hm.
  repeat (apply orb_false_elim in Hm; destruct Hm as [? Hm]).
  repeat match goal with H : String.eqb _ _ = false |- _ => rewrite H; clear H end.
  reflexivity.
Qed.

(** What [cmake_args] returns, by cases on the version probe and on the
    MPI provider. *)
Lemma cmake_args_cases p :
  cmake_args gcvo p =
    match fflags gcvo (compiler p) with
    | Raise e => Raise e
    | Ok fl =>
        if supported_mpi p
        then match List.find (fun m => String.eqb (stack_package m) (mpi_provider (spec p)))
                     all_stacks with
             | Some m => Ok (leading_defines p ++ flags_slot fl
                               ++ [define "MPI_STACK" (VStr (stack_identifier m))])
             | None => Raise (InstallError "Unsupported MPI stack")
             end
        else Raise (InstallError "Unsupported MPI stack")
    end.
Proof.
  rewrite cmake_args_unfold.
  destruct (fflags gcvo (compiler p)) as [fl|e]; [|reflexivity]. simpl bind.
  destruct (supported_mpi p) eqn:Hs.
  - destruct (List.find _ all_stacks) as [m|] eqn:Hf.
    + apply find_some in Hf as [_ Hm]. apply String.eqb_eq in Hm.
      rewrite (append_mpi_stack_supported p m) by done.
      reflexivity.
    + apply supported_mpi_true in Hs as [m Hm].
      eapply find_none with (x := m) in Hf.
      * apply String.eqb_neq in Hf. congruence.
      * destruct m; simpl; tauto.
  - by apply append_mpi_stack_unsupported.
Qed.

Lemma in_gcc_family_In c :
  in_gcc_family c = true <-> In (name c) ["gcc"; "clang"; "apple-clang"].
Proof.
  unfold in_gcc_family, gcc_family. rewrite existsb_exists. split.
  - intros (x & Hin & Heq). apply String.eqb_eq in Heq. by subst x.
  - intros Hin. exists (name c). split; [done|]. apply String.eqb_refl.
Qed.

Lemma cmake_args_ok_inv p args :
  cmake_args gcvo p = Ok args ->
  exists fl m,
    fflags gcvo (compiler p) = Ok fl
    /\ mpi_provider (spec p) = stack_package m
    /\ args = leading_defines p ++ flags_slot fl
              ++ [define "MPI_STACK" (VStr (stack_identifier m))].
Proof.
  rewrite cmake_args_cases.
  destruct (fflags gcvo (compiler p)) as [fl|e]; [|discriminate].
  destruct (supported_mpi p); [|discriminate].
  destruct (List.find _ all_stacks) as [m|] eqn:Hf; [|discriminate].
  intros [= <-]. exists fl, m. repeat split.
  apply find_some in Hf as [_ Hm]. apply String.eqb_eq in Hm. by symmetry.
Qed.

Lemma cmake_args_succeeds p :
  supported_mpi p = true -> probe_ok gcvo (compiler p) = true ->
  exists args, cmake_args gcvo p = Ok args.
Proof.
  intros Hs Hp. rewrite <- fflags_ok_iff in Hp.
  apply supported_mpi_true in Hs as [m Hm].
  rewrite cmake_args_unfold.
  destruct (fflags gcvo (compiler p)) as [fl|e]; [|discriminate]. simpl bind.
  rewrite (append_mpi_stack_supported p m) by done. eauto.
Qed.

Lemma cmake_args_unsupported p :
  supported_mpi p = false -> is_ok (cmake_args gcvo p) = false.
Proof.
  intros Hs. rewrite cmake_args_cases.
  destruct (fflags gcvo (compiler p)); [|reflexivity].
  by rewrite Hs.
Qed.

Lemma values_of_directive var p fl m :
  values_of var (leading_defines p ++ flags_slot fl
                   ++ [define "MPI_STACK" (VStr (stack_identifier m))]) =
    values_of var (leading_defines p) ++ values_of var (flags_slot fl)
      ++ values_of var [define "MPI_STACK" (VStr (stack_identifier m))].
Proof.
  unfold values_of. by rewrite !List.filter_app, !map_app.
Qed.

End ResolverFacts.

(** ** Properties of the configuration resolver *)

(** C1: when the MPI provider of the dependency selection is one of the
    five stacks, every directive [cmake_args] returns holds exactly one
    [MPI_STACK] define, whose value is the identifier of that stack, and a
    directive is returned whenever the version probe yields a number; when
    the provider is none of the five, no directive is returned, and the
    exception is [InstallError "Unsupported MPI stack"] whenever the version
    probe yields a number. *)
Theorem mpi_stack_define (gcvo : string -> string -> string) (p : Package) :
  (forall m args,
      mpi_provider (spec p) = stack_package m ->
      cmake_args gcvo p = Ok args ->
      values_of "MPI_STACK" args = [VStr (stack_identifier m)])
  /\ (forall m,
      mpi_provider (spec p) = stack_package m ->
      probe_ok gcvo (compiler p) = true ->
      exists args, cmake_args gcvo p = Ok args
                   /\ values_of "MPI_STACK" args = [VStr (stack_identifier m)])
  /\ (supported_mpi p = false -> is_ok (cmake_args gcvo p) = false)
  /\ (supported_mpi p = false ->
      probe_ok gcvo (compiler p) = true ->
      cmake_args gcvo p = Raise (InstallError "Unsupported MPI stack")).
Proof.
  assert (Hone : forall m args,
             mpi_provider (spec p) = stack_package m ->
             cmake_args gcvo p = Ok args ->
             values_of "MPI_STACK" args = [VStr (stack_identifier m)]).
  { intros m args Hm Hargs.
    apply cmake_args_ok_inv in Hargs as (fl & m' & _ & Hm' & ->).
    assert (m' = m) as -> by (rewrite Hm in Hm'; destruct m, m'; simpl in Hm'; congruence).
    rewrite values_of_directive. destruct fl; reflexivity. }
  split; [exact Hone|]. split; [|split].
  - intros m Hm Hp.
    destruct (cmake_args_succeeds gcvo p) as [args Hargs]; [|done|].
    + apply supported_mpi_true. eauto.
    + exists args. split; [done|]. by apply Hone.
  - apply cmake_args_unsupported.
  - intros Hs Hp. rewrite cmake_args_cases.
    rewrite <- fflags_ok_iff in Hp.
    destruct (fflags gcvo (compiler p)); [|discriminate].
    by rewrite Hs.
Qed.

Lemma mpi_stack_define_witness :
  (exists args,
      cmake_args (prints "11.2.0") (sample_package "gcc" "intel-oneapi-mpi") = Ok args
      /\ values_of "MPI_STACK" args = [VStr "intelmpi"])
  /\ cmake_args (prints "11.2.0") (sample_package "gcc" "mvapich2")
     = Raise (InstallError "Unsupported MPI stack").
Proof.
  pose proof (mpi_stack_define (prints "11.2.0") (sample_package "gcc" "intel-oneapi-mpi"))
    as (_ & Hsome & _).
  pose proof (mpi_stack_define (prints "11.2.0") (sample_package "gcc" "mvapich2"))
    as (_ & _ & _ & Hnone).
  split.
  - apply (Hsome IntelMPI); reflexivity.
  - apply Hnone; reflexivity.
Defined.

(** C2: for a compiler of the GCC-compatible family and a supported MPI
    provider, a probed major version of 9 gives a directive whose only
    [CMAKE_Fortran_FLAGS] define has the value [-ffree-line-length-none],
    and a probed major version of 10 or more gives a directive whose only
    [CMAKE_Fortran_FLAGS] define holds the three flags, line length, BOZ
    tolerance and argument-mismatch tolerance, separated by single spaces. *)
Theorem gcc_family_flags (gcvo : string -> string -> string) (p : Package) :
  In (name (compiler p)) ["gcc"; "clang"; "apple-clang"] ->
  supported_mpi p = true ->
  (gfortran_major_ver gcvo (compiler p) = Ok 9 ->
   exists args,
     cmake_args gcvo p = Ok args
     /\ values_of "CMAKE_Fortran_FLAGS" args = [VStr "-ffree-line-length-none"])
  /\ (forall v,
      gfortran_major_ver gcvo (compiler p) = Ok v -> 10 <= v ->
      exists args,
        cmake_args gcvo p = Ok args
        /\ values_of "CMAKE_Fortran_FLAGS" args =
             [VStr "-ffree-line-length-none -fallow-invalid-boz -fallow-argument-mismatch"]).
Proof.
  intros Hfam Hs. apply in_gcc_family_In in Hfam.
  assert (Hgo : forall v fl,
             gfortran_major_ver gcvo (compiler p) = Ok v ->
             (if 10 <=? v then [line_length_flag; boz_flag; mismatch_flag]
              else [line_length_flag]) = fl ->
             exists args, cmake_args gcvo p = Ok args
                          /\ values_of "CMAKE_Fortran_FLAGS" args = values_of "CMAKE_Fortran_FLAGS" (flags_slot fl)).
  { intros v fl Hv Hfl.
    assert (Hff : fflags gcvo (compiler p) = Ok fl)
      by (rewrite fflags_unfold, Hfam, Hv; simpl; by rewrite Hfl).
    destruct (cmake_args_succeeds gcvo p) as [args Hargs]; [done| |].
    { by rewrite <- fflags_ok_iff, Hff. }
    exists args. split; [done|].
    apply cmake_args_ok_inv in Hargs as (fl' & m & Hff' & _ & ->).
    assert (fl' = fl) as -> by congruence.
    rewrite values_of_directive. destruct fl; reflexivity. }
  split.
  - intros Hv.
    destruct (Hgo 9 [line_length_flag] Hv eq_refl) as (args & Hargs & Hval).
    exists args. by rewrite Hval.
  - intros v Hv Hle.
    destruct (Hgo v [line_length_flag; boz_flag; mismatch_flag] Hv) as (args & Hargs & Hval).
    + destruct (Z.leb_spec 10 v); [done|lia].
    + exists args. by rewrite Hval.
Qed.

Lemma gcc_family_flags_witness :
  (exists args,
      cmake_args (prints "9.5.0") (sample_package "clang" "mpich") = Ok args
      /\ values_of "CMAKE_Fortran_FLAGS" args = [VStr "-ffree-line-length-none"])
  /\ (exists args,
      cmake_args (prints "13.2.0") (sample_package "apple-clang" "mpich") = Ok args
      /\ values_of "CMAKE_Fortran_FLAGS" args =
           [VStr "-ffree-line-length-none -fallow-invalid-boz -fallow-argument-mismatch"]).
Proof.
  split.
  - apply (gcc_family_flags (prints "9.5.0") (sample_package "clang" "mpich"));
      [simpl; tauto | reflexivity | reflexivity].
  - apply (gcc_family_flags (prints "13.2.0") (sample_package "apple-clang" "mpich"))
      with (v := 13); [simpl; tauto | reflexivity | reflexivity | lia].
Defined.

(** C3: every directive [cmake_args] returns is, in this order, the
    [USE_F2PY] toggle, the [USE_EXTDATA2G] toggle, the [CMAKE_MODULE_PATH]
    define pointing at the [cmake] directory of the esmf prefix, the
    [CMAKE_Fortran_FLAGS] define when and only when the list of flags is not
    empty, and the [MPI_STACK] define last; the module-path define is in
    every such directive. *)
Theorem cmake_args_order (gcvo : string -> string -> string) (p : Package)
    (args : list Define) :
  cmake_args gcvo p = Ok args ->
  exists fl m,
    fflags gcvo (compiler p) = Ok fl
    /\ mpi_provider (spec p) = stack_package m
    /\ args =
         [ define "USE_F2PY" (VBool (f2py (variants (spec p))));
           define "USE_EXTDATA2G" (VBool (extdata2g (variants (spec p))));
           define "CMAKE_MODULE_PATH"
             (VStr (prefix_attr (install_prefix (spec p) "esmf") "cmake")) ]
         ++ match fl with
            | [] => []
            | _ :: _ => [define "CMAKE_Fortran_FLAGS" (VStr (join " " fl))]
            end
         ++ [define "MPI_STACK" (VStr (stack_identifier m))]
    /\ args !! 2%nat =
         Some (define "CMAKE_MODULE_PATH"
                 (VStr (prefix_attr (install_prefix (spec p) "esmf") "cmake")))
    /\ last args = Some (define "MPI_STACK" (VStr (stack_identifier m))).
Proof.
  intros Hargs.
  apply cmake_args_ok_inv in Hargs as (fl & m & Hfl & Hm & ->).
  exists fl, m. repeat split; try done.
  destruct fl; reflexivity.
Qed.

Lemma cmake_args_order_witness :
  exists fl m,
    fflags (prints "11.2.0") (compiler (sample_package "gcc" "openmpi")) = Ok fl
    /\ mpi_provider (spec (sample_package "gcc" "openmpi")) = stack_package m
    /\ sample_directive =
         [ define "USE_F2PY" (VBool false);
           define "USE_EXTDATA2G" (VBool true);
           define "CMAKE_MODULE_PATH" (VStr "/opt/spack/esmf/cmake") ]
         ++ match fl with
            | [] => []
            | _ :: _ => [define "CMAKE_Fortran_FLAGS" (VStr (join " " fl))]
            end
         ++ [define "MPI_STACK" (VStr (stack_identifier m))]
    /\ sample_directive !! 2%nat =
         Some (define "CMAKE_MODULE_PATH" (VStr "/opt/spack/esmf/cmake"))
    /\ last sample_directive = Some (define "MPI_STACK" (VStr (stack_identifier m))).
Proof.
  apply (cmake_args_order (prints "11.2.0") (sample_package "gcc" "openmpi")
           sample_directive).
  reflexivity.
Defined.

(** C4, as stated, fails: with a supported MPI provider and a GCC-family
    compiler whose version probe prints nothing, [cmake_args] raises
    [ValueError], a failure that is not the unsupported-MPI case. *)
Lemma malformed_version_raises :
  supported_mpi (sample_package "gcc" "openmpi") = true
  /\ cmake_args (prints "") (sample_package "gcc" "openmpi") = Raise ValueError.
Proof. split; reflexivity. Qed.

(** C4, amended: [cmake_args] returns a directive exactly when the version
    probe yields a number (for a compiler of the GCC-compatible family) and
    the MPI provider is supported; otherwise it raises [ValueError] when the
    probe output is not a number, and [InstallError "Unsupported MPI stack"]
    when the probe is fine and the provider is unsupported.  Its result is
    determined by the variants, the provider, the esmf prefix, the compiler
    name and the probed version. *)
Theorem cmake_args_pure_total (gcvo : string -> string -> string) (p : Package) :
  match cmake_args gcvo p with
  | Ok args =>
      probe_ok gcvo (compiler p) = true /\ supported_mpi p = true
  | Raise e =>
      (probe_ok gcvo (compiler p) = false /\ e = ValueError)
      \/ (probe_ok gcvo (compiler p) = true /\ supported_mpi p = false
          /\ e = InstallError "Unsupported MPI stack")
  end
  /\ (forall gcvo' p',
      variants (spec p') = variants (spec p) ->
      mpi_provider (spec p') = mpi_provider (spec p) ->
      install_prefix (spec p') "esmf" = install_prefix (spec p) "esmf" ->
      name (compiler p') = name (compiler p) ->
      gfortran_major_ver gcvo' (compiler p') = gfortran_major_ver gcvo (compiler p) ->
      cmake_args gcvo' p' = cmake_args gcvo p).
Proof.
  split.
  - rewrite cmake_args_cases, <- fflags_ok_iff.
    destruct (fflags gcvo (compiler p)) as [fl|e] eqn:Hfl.
    + destruct (supported_mpi p) eqn:Hs.
      * destruct (List.find _ all_stacks) as [m|] eqn:Hf; [done|].
        apply supported_mpi_true in Hs as [m Hm].
        eapply find_none with (x := m) in Hf.
        -- apply String.eqb_neq in Hf. congruence.
        -- destruct m; simpl; tauto.
      * right. done.
    + left. split; [done|].
      rewrite fflags_unfold in Hfl.
      destruct (in_gcc_family (compiler p)); [|discriminate].
      destruct (gfortran_major_ver gcvo (compiler p)) as [v|e'] eqn:Hv; [discriminate|].
      simpl in Hfl. injection Hfl as <-.
      by apply gfortran_major_ver_raises in Hv.
  - intros gcvo' p' Hvar Hmpi Hesmf Hname Hver.
    rewrite !cmake_args_cases, !fflags_unfold.
    unfold in_gcc_family, supported_mpi, leading_defines.
    by rewrite Hvar, Hmpi, Hesmf, Hname, Hver.
Qed.

Lemma cmake_args_pure_total_witness :
  cmake_args (prints "11.4.1") (sample_package "gcc" "openmpi")
  = cmake_args (prints "11.2.0") (sample_package "gcc" "openmpi").
Proof.
  apply (cmake_args_pure_total (prints "11.2.0") (sample_package "gcc" "openmpi"));
    reflexivity.
Defined.

(** C5: with [f2py] off and [extdata2g] on, every directive [cmake_args]
    returns has [USE_EXTDATA2G] enabled and [USE_F2PY] disabled (the toggle
    is present, with the value false), and a directive is returned for every
    supported MPI provider when the version probe yields a number. *)
Theorem extdata2g_without_f2py (gcvo : string -> string -> string) (p : Package) :
  f2py (variants (spec p)) = false ->
  extdata2g (variants (spec p)) = true ->
  (forall args,
      cmake_args gcvo p = Ok args ->
      values_of "USE_EXTDATA2G" args = [VBool true]
      /\ values_of "USE_F2PY" args = [VBool false])
  /\ (supported_mpi p = true ->
      probe_ok gcvo (compiler p) = true ->
      exists args, cmake_args gcvo p = Ok args).
Proof.
  intros Hf Hx. split; [|apply cmake_args_succeeds].
  intros args Hargs.
  apply cmake_args_ok_inv in Hargs as (fl & m & _ & _ & ->).
  rewrite !values_of_directive. unfold leading_defines. rewrite Hf, Hx.
  destruct fl; split; reflexivity.
Qed.

Lemma extdata2g_without_f2py_witness :
  values_of "USE_EXTDATA2G" sample_directive = [VBool true]
  /\ values_of "USE_F2PY" sample_directive = [VBool false].
Proof.
  apply (extdata2g_without_f2py (prints "11.2.0") (sample_package "gcc" "openmpi"));
    reflexivity.
Defined.

(** C6: for a compiler whose name is none of gcc, clang and apple-clang, no
    directive [cmake_args] returns has a [CMAKE_Fortran_FLAGS] define,
    whatever the variants are, and a directive is returned for every
    supported MPI provider. *)
Theorem no_flags_outside_gcc_family (gcvo : string -> string -> string) (p : Package) :
  ~ In (name (compiler p)) ["gcc"; "clang"; "apple-clang"] ->
  (forall args,
      cmake_args gcvo p = Ok args ->
      values_of "CMAKE_Fortran_FLAGS" args = [])
  /\ (supported_mpi p = true -> exists args, cmake_args gcvo p = Ok args).
Proof.
  intros Hout.
  assert (Hfam : in_gcc_family (compiler p) = false).
  { destruct (in_gcc_family (compiler p)) eqn:E; [|done].
    by apply in_gcc_family_In in E. }
  split.
  - intros args Hargs.
    apply cmake_args_ok_inv in Hargs as (fl & m & Hfl & _ & ->).
    rewrite fflags_unfold, Hfam in Hfl. injection Hfl as <-.
    reflexivity.
  - intros Hs. apply cmake_args_succeeds; [done|].
    unfold probe_ok. by rewrite Hfam.
Qed.

Lemma no_flags_outside_gcc_family_witness :
  (forall args,
      cmake_args (prints "2021.10.0") (sample_package "intel" "mpt") = Ok args ->
      values_of "CMAKE_Fortran_FLAGS" args = [])
  /\ (supported_mpi (sample_package "intel" "mpt") = true ->
      exists args,
        cmake_args (prints "2021.10.0") (sample_package "intel" "mpt") = Ok args).
Proof.
  apply (no_flags_outside_gcc_family (prints "2021.10.0") (sample_package "intel" "mpt")).
  simpl. intros [H|[H|[H|[]]]]; discriminate H.
Defined.

(** C10: in every directive [cmake_args] returns, a [CMAKE_Fortran_FLAGS]
    define is present if and only if the compiler name is gcc, clang or
    apple-clang, and its value then starts with [-ffree-line-length-none]
    (so it is not empty). *)
Theorem fortran_flags_iff_gcc_family (gcvo : string -> string -> string)
    (p : Package) (args : list Define) :
  cmake_args gcvo p = Ok args ->
  (values_of "CMAKE_Fortran_FLAGS" args <> []
   <-> In (name (compiler p)) ["gcc"; "clang"; "apple-clang"])
  /\ (forall v,
      In v (values_of "CMAKE_Fortran_FLAGS" args) ->
      exists rest, v = VStr ("-ffree-line-length-none" +:+ rest)).
Proof.
  intros Hargs.
  apply cmake_args_ok_inv in Hargs as (fl & m & Hfl & _ & ->).
  rewrite <- in_gcc_family_In.
  rewrite fflags_unfold in Hfl.
  assert (Hval : values_of "CMAKE_Fortran_FLAGS"
                   (leading_defines p ++ flags_slot fl
                      ++ [define "MPI_STACK" (VStr (stack_identifier m))])
                 = values_of "CMAKE_Fortran_FLAGS" (flags_slot fl))
    by (rewrite values_of_directive; destruct fl; reflexivity).
  rewrite Hval. clear Hval.
  destruct (in_gcc_family (compiler p)).
  - destruct (gfortran_major_ver gcvo (compiler p)) as [v|e]; [|discriminate].
    simpl in Hfl. injection Hfl as <-.
    destruct (10 <=? v); (split; [split; [done|discriminate]|]);
      intros w [<-|[]]; eexists; reflexivity.
  - injection Hfl as <-. split; [split; [done|discriminate]|].
    intros w [].
Qed.

Lemma fortran_flags_iff_gcc_family_witness :
  (values_of "CMAKE_Fortran_FLAGS" sample_directive <> []
   <-> In "gcc" ["gcc"; "clang"; "apple-clang"])
  /\ (forall v,
      In v (values_of "CMAKE_Fortran_FLAGS" sample_directive) ->
      exists rest, v = VStr ("-ffree-line-length-none" +:+ rest)).
Proof.
  apply (fortran_flags_iff_gcc_family (prints "11.2.0") (sample_package "gcc" "openmpi")
           sample_directive).
  reflexivity.
Defined.

(** ** Properties of the pre-build hook *)

Lemma clone_mepo_run exit_status p st :
  let mepo := command_path (spec p) "mepo" in
  clone_mepo exit_status p st =
    ((if exit_status mepo ["clone"; "--partial=blobless"] (stage_source_path p) =? 0
      then Ok tt else Raise (ProcessError mepo)),
     {| cwd := cwd st;
        trace := trace st ++ [Exec mepo ["clone"; "--partial=blobless"]
                                (stage_source_path p)] |}).
Proof.
  unfold clone_mepo, working_dir, bindM, lift, spec_getitem, call, chdir.
  rewrite mepo_in_nodes. simpl.
  destruct (exit_status _ _ _ =? 0); reflexivity.
Qed.

Lemma exec_count_app tr1 tr2 :
  exec_count (tr1 ++ tr2) = (exec_count tr1 + exec_count tr2)%nat.
Proof. unfold exec_count. by rewrite List.filter_app, length_app. Qed.

(** C8: the hook runs the mepo command of the dependency selection once,
    with the arguments [clone] and [--partial=blobless], in the source
    directory of the stage, and returns to the directory it was called in;
    in the cmake phase this is the only external command, and it comes
    before the configuration tool receives its defines, which does not
    happen when the clone fails. *)
Theorem clone_mepo_once_before_cmake
    (exit_status : string -> list string -> string -> Z)
    (gcvo : string -> string -> string) (p : Package) (st : Process) :
  let mepo := command_path (spec p) "mepo" in
  let clone := Exec mepo ["clone"; "--partial=blobless"] (stage_source_path p) in
  (exists r,
      clone_mepo exit_status p st
      = (r, {| cwd := cwd st; trace := trace st ++ [clone] |}))
  /\ (exists r rest,
      execute_cmake_phase exit_status gcvo p st
      = (r, {| cwd := cwd st; trace := trace st ++ clone :: rest |})
      /\ (rest = [] \/ exists args, cmake_args gcvo p = Ok args /\ rest = [Configure args])
      /\ exec_count (trace st ++ clone :: rest) = S (exec_count (trace st))
      /\ (exit_status mepo ["clone"; "--partial=blobless"] (stage_source_path p) <> 0 ->
          r = Raise (ProcessError mepo) /\ rest = [])).
Proof.
  intros mepo clone. split.
  - rewrite clone_mepo_run. eauto.
  - change (execute_cmake_phase exit_status gcvo p st)
      with (bindM (bindM (clone_mepo exit_status p) (fun _ => ret tt))
              (fun _ => cmake gcvo p) st).
    unfold bindM at 1 2.
    rewrite clone_mepo_run. fold mepo. fold clone.
    assert (Hcount : forall rest,
               exec_count rest = 0%nat ->
               exec_count (trace st ++ clone :: rest) = S (exec_count (trace st))).
    { intros rest Hrest. change (clone :: rest) with ([clone] ++ rest).
      rewrite !exec_count_app, Hrest. unfold exec_count, clone. simpl. lia. }
    destruct (exit_status mepo _ _ =? 0) eqn:Hexit.
    + apply Z.eqb_eq in Hexit.
      unfold ret, cmake, bindM, lift.
      destruct (cmake_args gcvo p) as [args|e] eqn:Hargs.
      * exists (Ok tt), [Configure args]. cbn [cwd trace].
        rewrite <- app_assoc.
        split; [reflexivity|]. split; [right; eauto|]. split; [by apply Hcount|].
        intros Hne. contradiction.
      * exists (Raise e), [].
        split; [reflexivity|]. split; [by left|]. split; [by apply Hcount|].
        intros Hne. contradiction.
    + exists (Raise (ProcessError mepo)), [].
      split; [reflexivity|]. split; [by left|]. split; [by apply Hcount|].
      done.
Qed.

Lemma clone_mepo_once_before_cmake_witness :
  execute_cmake_phase (fun _ _ _ => 0) (prints "11.2.0")
    (sample_package "gcc" "openmpi") initial_process
  = (Ok tt,
     {| cwd := "/home/user";
        trace := [ Exec "/opt/spack/mepo/bin/mepo" ["clone"; "--partial=blobless"]
                     "/tmp/stage/spack-src";
                   Configure sample_directive ] |})
  /\ execute_cmake_phase (fun _ _ _ => 1) (prints "11.2.0")
       (sample_package "gcc" "openmpi") initial_process
     = (Raise (ProcessError "/opt/spack/mepo/bin/mepo"),
        {| cwd := "/home/user";
           trace := [ Exec "/opt/spack/mepo/bin/mepo" ["clone"; "--partial=blobless"]
                        "/tmp/stage/spack-src" ] |}).
Proof.
  destruct (clone_mepo_once_before_cmake (fun _ _ _ => 1) (prints "11.2.0")
              (sample_package "gcc" "openmpi") initial_process)
    as (_ & r & rest & Hrun & _ & _ & Hfail).
  destruct Hfail as [-> ->]; [discriminate|].
  split; [reflexivity | exact Hrun].
Defined.

(** ** Properties of the environment patch *)

(** C7: applying the unset of [BASEDIR] twice leaves the environment as
    applying it once does, and when [BASEDIR] is absent applying it leaves
    the environment as it was; the step is a total function, so it raises
    nothing. *)
Theorem unset_basedir_idempotent (p : Package) (env : list env_op)
    (environ : gmap string string) :
  apply_modifications (setup_build_environment p (setup_build_environment p env)) environ
  = apply_modifications (setup_build_environment p env) environ
  /\ (apply_modifications env environ !! "BASEDIR" = None ->
      apply_modifications (setup_build_environment p env) environ
      = apply_modifications env environ).
Proof.
  unfold setup_build_environment, unset, apply_modifications.
  rewrite !foldl_snoc. cbn [execute]. split.
  - apply delete_delete_eq.
  - apply delete_id.
Qed.

Lemma unset_basedir_idempotent_witness :
  apply_modifications (setup_build_environment (sample_package "gcc" "openmpi") [])
    {[ "PATH" := "/usr/bin" ]}
  = apply_modifications [] {[ "PATH" := "/usr/bin" ]}.
Proof.
  apply (unset_basedir_idempotent (sample_package "gcc" "openmpi") []
           {[ "PATH" := "/usr/bin" ]}).
  reflexivity.
Defined.

(** C9: the environment patch adds one operation, the unset of [BASEDIR],
    and sets nothing; after it every variable other than [BASEDIR] has the
    value it had, and [BASEDIR] is absent. *)
Theorem setup_build_environment_frame (p : Package) (env : list env_op)
    (environ : gmap string string) :
  setup_build_environment p env = env ++ [UnsetEnv "BASEDIR"]
  /\ (forall var,
      var <> "BASEDIR" ->
      apply_modifications (setup_build_environment p env) environ !! var
      = apply_modifications env environ !! var)
  /\ apply_modifications (setup_build_environment p env) environ !! "BASEDIR" = None.
Proof.
  unfold setup_build_environment, unset, apply_modifications.
  rewrite foldl_snoc. cbn [execute]. repeat split.
  - intros var Hvar. by apply lookup_delete_ne.
  - apply lookup_delete_eq.
Qed.

Lemma setup_build_environment_frame_witness :
  apply_modifications (setup_build_environment (sample_package "gcc" "openmpi") [])
    {[ "BASEDIR" := "/opt/baselibs"; "PATH" := "/usr/bin" ]} !! "PATH"
  = Some "/usr/bin".
Proof.
  destruct (setup_build_environment_frame (sample_package "gcc" "openmpi") []
              {[ "BASEDIR" := "/opt/baselibs"; "PATH" := "/usr/bin" ]})
    as (_ & Hframe & _).
  rewrite (Hframe "PATH"); [reflexivity | discriminate].
Defined.

(** ** Helper lemmas for the further properties *)


Lemma execute_cmake_phase_run
    (exit_status : string -> list string -> string -> Z)
    (gcvo : string -> string -> string) (p : Package) (st : Process) :
  execute_cmake_phase exit_status gcvo p st =
    let mepo := command_path (spec p) "mepo" in
    let clone := Exec mepo ["clone"; "--partial=blobless"] (stage_source_path p) in
    if exit_status mepo ["clone"; "--partial=blobless"] (stage_source_path p) =? 0
    then match cmake_args gcvo p with
         | Ok args =>
             (Ok tt, {| cwd := cwd st; trace := trace st ++ [clone; Configure args] |})
         | Raise e =>
             (Raise e, {| cwd := cwd st; trace := trace st ++ [clone] |})
         end
    else (Raise (ProcessError mepo), {| cwd := cwd st; trace := trace st ++ [clone] |}).
Proof.
  change (execute_cmake_phase exit_status gcvo p st)
    with (bindM (bindM (clone_mepo exit_status p) (fun _ => ret tt))
            (fun _ => cmake gcvo p) st).
  unfold bindM at 1 2. rewrite clone_mepo_run. cbv zeta.
  destruct (_ =? 0); [|reflexivity].
  unfold ret, cmake, bindM, lift.
  destruct (cmake_args gcvo p); cbn [cwd trace]; [|reflexivity].
  by rewrite <- app_assoc.
Qed.

(** ** Further properties: the version probe *)

Lemma split_no_char sep a : no_char sep a = true -> split sep a = [a].
Proof.
  induction a as [|c a IH]; simpl; [done|].
  destruct (Ascii.eqb c sep); simpl; [done|].
  intros Ha. by rewrite IH.
Qed.

Lemma split_app_sep sep a b :
  no_char sep a = true ->
  split sep (a +:+ String sep b) = a :: split sep b.
Proof.
  induction a as [|c a IH]; simpl.
  - intros _. by rewrite Ascii.eqb_refl.
  - destruct (Ascii.eqb c sep); simpl; [done|].
    intros Ha. by rewrite IH.
Qed.


Lemma blank_no_dot ws : blank ws = true -> no_char "."%char ws = true.
Proof.
  induction ws as [|c ws IH]; simpl; [done|].
  intros [Hc Hws]%andb_true_iff. rewrite IH by done.
  destruct (Ascii.eqb_spec c "."%char) as [->|]; [discriminate Hc|done].
Qed.


Lemma digit_not_special c d :
  digit_value c = Some d ->
  is_space c = false
  /\ Ascii.eqb c "."%char = false
  /\ Ascii.eqb c "+"%char = false
  /\ Ascii.eqb c "-"%char = false
  /\ Ascii.eqb c "_"%char = false.
Proof.
  destruct c as [b0 b1 b2 b3 b4 b5 b6 b7].
  destruct b0, b1, b2, b3, b4, b5, b6, b7; vm_compute; intros H;
    solve [discriminate H | repeat split].
Qed.




Lemma lstrip_digits s : all_digits s = true -> lstrip s = s.
Proof.
  destruct s as [|c s]; simpl; [done|].
  destruct (digit_value c) as [d|] eqn:Hd; [|done].
  apply digit_not_special in Hd as (-> & _). done.
Qed.








Lemma lstrip_blank ws : blank ws = true -> lstrip ws = "".
Proof.
  induction ws as [|c ws IH]; simpl; [done|].
  intros [Hc Hws]%andb_true_iff. rewrite Hc. by apply IH.
Qed.

Lemma int_blank ws : blank ws = true -> int ws = Raise ValueError.
Proof. intros Hws. unfold int, strip. by rewrite lstrip_blank. Qed.

Lemma first_component gcvo c a b :
  no_char "."%char a = true ->
  gcvo (fc c) "-dumpversion" = a \/ gcvo (fc c) "-dumpversion" = a +:+ "." +:+ b ->
  gfortran_major_ver gcvo c = int a.
Proof.
  intros Ha Hout. unfold gfortran_major_ver.
  destruct Hout as [-> | ->].
  - by rewrite split_no_char.
  - change ("." +:+ b) with (String "."%char b). by rewrite split_app_sep.
Qed.

(** X1: the probed major version is read from the text the Fortran
    compiler prints before the first dot, and from nothing after it. *)
Theorem probe_reads_first_component (gcvo : string -> string -> string)
    (c : Compiler) (a b : string) :
  no_char "."%char a = true ->
  gcvo (fc c) "-dumpversion" = a +:+ "." +:+ b ->
  gfortran_major_ver gcvo c = int a.
Proof. intros Ha Hout. apply (first_component gcvo c a b); auto. Qed.

Lemma probe_reads_first_component_witness :
  gfortran_major_ver (prints "12.3.1 20230508") (compiler (sample_package "gcc" "mpich"))
  = int "12".
Proof.
  apply (probe_reads_first_component (prints "12.3.1 20230508")
           (compiler (sample_package "gcc" "mpich")) "12" "3.1 20230508");
    reflexivity.
Defined.



(** X3: when the text before the first dot of the compiler's output is
    empty or white space, [cmake_args] raises [ValueError] for every
    compiler of the GCC-compatible family, whatever the MPI provider is. *)
Theorem blank_version_raises (gcvo : string -> string -> string)
    (p : Package) (ws rest : string) :
  In (name (compiler p)) ["gcc"; "clang"; "apple-clang"] ->
  blank ws = true ->
  gcvo (fc (compiler p)) "-dumpversion" = ws
  \/ gcvo (fc (compiler p)) "-dumpversion" = ws +:+ "." +:+ rest ->
  cmake_args gcvo p = Raise ValueError.
Proof.
  intros Hfam Hws Hout. apply in_gcc_family_In in Hfam.
  rewrite cmake_args_cases, fflags_unfold, Hfam.
  rewrite (first_component gcvo (compiler p) ws rest) by (by apply blank_no_dot || done).
  by rewrite int_blank.
Qed.

Lemma blank_version_raises_witness :
  cmake_args (prints ".2.0") (sample_package "clang" "cray-mpich") = Raise ValueError.
Proof.
  apply (blank_version_raises (prints ".2.0") (sample_package "clang" "cray-mpich") "" "2.0");
    [simpl; tauto | reflexivity | right; reflexivity].
Defined.

(** ** Further properties: the directive *)

(** X4: for a compiler of the GCC-compatible family and a supported MPI
    provider, the directive holds the three flags exactly when the probed
    major version is 10 or more, and the line-length flag alone for every
    smaller version, zero and negative numbers included. *)
Theorem flags_threshold (gcvo : string -> string -> string) (p : Package) (v : Z) :
  In (name (compiler p)) ["gcc"; "clang"; "apple-clang"] ->
  supported_mpi p = true ->
  gfortran_major_ver gcvo (compiler p) = Ok v ->
  exists args,
    cmake_args gcvo p = Ok args
    /\ values_of "CMAKE_Fortran_FLAGS" args =
         [VStr (if 10 <=? v
                then "-ffree-line-length-none -fallow-invalid-boz -fallow-argument-mismatch"
                else "-ffree-line-length-none")].
Proof.
  intros Hfam Hs Hv. apply in_gcc_family_In in Hfam.
  apply supported_mpi_true in Hs as [m Hm].
  rewrite cmake_args_unfold, fflags_unfold, Hfam, Hv. simpl bind.
  rewrite (append_mpi_stack_supported p m) by done.
  eexists. split; [reflexivity|].
  destruct (10 <=? v); reflexivity.
Qed.

Lemma flags_threshold_witness :
  exists args,
    cmake_args (prints "4.8.5") (sample_package "gcc" "mpt") = Ok args
    /\ values_of "CMAKE_Fortran_FLAGS" args = [VStr "-ffree-line-length-none"].
Proof.
  apply (flags_threshold (prints "4.8.5") (sample_package "gcc" "mpt") 4);
    [simpl; tauto | reflexivity | reflexivity].
Defined.

(** X5: for a compiler outside the GCC-compatible family the result of
    [cmake_args] does not depend on what the Fortran compiler prints: the
    version probe plays no part. *)
Theorem probe_unused_outside_gcc_family (gcvo gcvo' : string -> string -> string)
    (p : Package) :
  ~ In (name (compiler p)) ["gcc"; "clang"; "apple-clang"] ->
  cmake_args gcvo p = cmake_args gcvo' p.
Proof.
  intros Hout.
  assert (Hfam : in_gcc_family (compiler p) = false).
  { destruct (in_gcc_family (compiler p)) eqn:E; [|done].
    by apply in_gcc_family_In in E. }
  by rewrite !cmake_args_cases, !fflags_unfold, Hfam.
Qed.

Lemma probe_unused_outside_gcc_family_witness :
  cmake_args (prints "") (sample_package "oneapi" "intel-oneapi-mpi")
  = cmake_args (prints "2024.1.0") (sample_package "oneapi" "intel-oneapi-mpi").
Proof.
  apply (probe_unused_outside_gcc_family (prints "") (prints "2024.1.0")
           (sample_package "oneapi" "intel-oneapi-mpi")).
  simpl. intros [H|[H|[H|[]]]]; discriminate H.
Defined.

(** X6: [cmake_args] reads the variants [f2py] and [extdata2g] only: two
    packages that agree on these two, on the MPI provider, on the esmf
    prefix and on the compiler get the same result, whatever their
    [debug], [develop] and [build_type] variants and their stages are. *)
Theorem cmake_args_unread_variants (gcvo : string -> string -> string) (p p' : Package) :
  f2py (variants (spec p')) = f2py (variants (spec p)) ->
  extdata2g (variants (spec p')) = extdata2g (variants (spec p)) ->
  mpi_provider (spec p') = mpi_provider (spec p) ->
  install_prefix (spec p') "esmf" = install_prefix (spec p) "esmf" ->
  name (compiler p') = name (compiler p) ->
  fc (compiler p') = fc (compiler p) ->
  cmake_args gcvo p' = cmake_args gcvo p.
Proof.
  intros Hf Hx Hmpi Hesmf Hname Hfc.
  rewrite !cmake_args_cases, !fflags_unfold.
  unfold in_gcc_family, supported_mpi, leading_defines, gfortran_major_ver.
  by rewrite Hf, Hx, Hmpi, Hesmf, Hname, Hfc.
Qed.

Lemma cmake_args_unread_variants_witness :
  cmake_args (prints "11.2.0") (debug_package "gcc" "openmpi")
  = cmake_args (prints "11.2.0") (sample_package "gcc" "openmpi").
Proof.
  apply (cmake_args_unread_variants (prints "11.2.0") (sample_package "gcc" "openmpi"));
    reflexivity.
Defined.

Lemma split_join sep (l : list string) :
  l <> [] ->
  Forall (fun x => no_char sep x = true) l ->
  split sep (join (String sep EmptyString) l) = l.
Proof.
  intros Hne Hall. induction Hall as [|x l Hx Hl IH]; [done|].
  destruct l as [|y l].
  - simpl. by apply split_no_char.
  - change (join (String sep EmptyString) (x :: y :: l))
      with (x +:+ String sep (join (String sep EmptyString) (y :: l))).
    rewrite split_app_sep by done. by rewrite IH.
Qed.

(** X7: the value of the [CMAKE_Fortran_FLAGS] define of a returned
    directive, cut at its spaces, gives back the list of flags that was
    joined: no flag is merged with or split from another. *)
Theorem flags_value_splits_back (gcvo : string -> string -> string) (p : Package)
    (args : list Define) (fl : list string) (s : string) :
  cmake_args gcvo p = Ok args ->
  fflags gcvo (compiler p) = Ok fl ->
  In (VStr s) (values_of "CMAKE_Fortran_FLAGS" args) ->
  split " "%char s = fl.
Proof.
  intros Hargs Hfl Hin.
  apply cmake_args_ok_inv in Hargs as (fl' & m & Hfl' & _ & ->).
  assert (fl' = fl) as -> by congruence.
  rewrite values_of_directive in Hin.
  rewrite fflags_unfold in Hfl.
  destruct (in_gcc_family (compiler p)).
  - destruct (gfortran_major_ver gcvo (compiler p)) as [v|e]; [|discriminate].
    simpl in Hfl. injection Hfl as <-.
    destruct (10 <=? v); destruct Hin as [[= <-]|[]].
    + apply (split_join " "%char [line_length_flag; boz_flag; mismatch_flag]);
        [discriminate | repeat constructor].
    + apply (split_join " "%char [line_length_flag]);
        [discriminate | repeat constructor].
  - injection Hfl as <-. destruct Hin.
Qed.

Lemma flags_value_splits_back_witness :
  split " "%char "-ffree-line-length-none -fallow-invalid-boz -fallow-argument-mismatch"
  = ["-ffree-line-length-none"; "-fallow-invalid-boz"; "-fallow-argument-mismatch"].
Proof.
  apply (flags_value_splits_back (prints "11.2.0") (sample_package "gcc" "openmpi")
           sample_directive);
    [reflexivity | reflexivity | simpl; tauto].
Defined.

(** X8: a returned directive names no CMake variable twice, and it has five
    defines for a compiler of the GCC-compatible family and four for any
    other compiler. *)
Theorem directive_names_distinct (gcvo : string -> string -> string) (p : Package)
    (args : list Define) :
  cmake_args gcvo p = Ok args ->
  NoDup (map cmake_var args)
  /\ List.length args = (if in_gcc_family (compiler p) then 5 else 4)%nat.
Proof.
  intros Hargs.
  apply cmake_args_ok_inv in Hargs as (fl & m & Hfl & _ & ->).
  rewrite fflags_unfold in Hfl.
  assert (Hnames : forall fl',
             NoDup (map cmake_var
                      (leading_defines p ++ flags_slot fl'
                         ++ [define "MPI_STACK" (VStr (stack_identifier m))]))).
  { intros [|f fl']; apply (bool_decide_unpack _); by vm_compute. }
  split; [apply Hnames|].
  destruct (in_gcc_family (compiler p)).
  - destruct (gfortran_major_ver gcvo (compiler p)) as [v|e]; [|discriminate].
    simpl in Hfl. injection Hfl as <-. by destruct (10 <=? v).
  - by injection Hfl as <-.
Qed.

Lemma directive_names_distinct_witness :
  NoDup (map cmake_var sample_directive)
  /\ List.length sample_directive = 5%nat.
Proof.
  apply (directive_names_distinct (prints "11.2.0") (sample_package "gcc" "openmpi")
           sample_directive).
  reflexivity.
Defined.

(** ** Further properties: the pre-build hook *)

(** X9: [clone_mepo] finds the mepo node in every dependency selection, so
    it never raises [KeyError]: it returns normally exactly when the tool
    exits with status 0, and raises [ProcessError] for the mepo command
    otherwise. *)
Theorem clone_mepo_outcome (exit_status : string -> list string -> string -> Z)
    (p : Package) (st : Process) :
  let mepo := command_path (spec p) "mepo" in
  let status := exit_status mepo ["clone"; "--partial=blobless"] (stage_source_path p) in
  (fst (clone_mepo exit_status p st) = Ok tt <-> status = 0)
  /\ (status <> 0 -> fst (clone_mepo exit_status p st) = Raise (ProcessError mepo)).
Proof.
  intros mepo status. rewrite clone_mepo_run. fold mepo. fold status. cbn [fst].
  destruct (Z.eqb_spec status 0) as [Hz|Hnz]; split.
  - done.
  - done.
  - split; [discriminate | done].
  - done.
Qed.

Lemma clone_mepo_outcome_witness :
  fst (clone_mepo (fun _ _ _ => 128) (sample_package "gcc" "openmpi") initial_process)
  = Raise (ProcessError "/opt/spack/mepo/bin/mepo").
Proof.
  apply (clone_mepo_outcome (fun _ _ _ => 128) (sample_package "gcc" "openmpi")
           initial_process).
  discriminate.
Defined.

(** X10: the hook looks at the mepo command and at the source directory of
    the stage only: packages that agree on these two run the same command
    with the same outcome, whatever their variants ([develop] included),
    their compiler and their MPI provider are. *)
Theorem clone_mepo_reads_command_and_stage
    (exit_status : string -> list string -> string -> Z) (p p' : Package) (st : Process) :
  command_path (spec p') "mepo" = command_path (spec p) "mepo" ->
  stage_source_path p' = stage_source_path p ->
  clone_mepo exit_status p' st = clone_mepo exit_status p st.
Proof.
  intros Hcmd Hstage. rewrite !clone_mepo_run. cbv zeta.
  by rewrite Hcmd, Hstage.
Qed.

Lemma clone_mepo_reads_command_and_stage_witness :
  clone_mepo (fun _ _ _ => 0)
    {| spec := spec (debug_package "oneapi" "mpt");
       compiler := compiler (debug_package "oneapi" "mpt");
       stage_source_path := "/tmp/stage/spack-src" |}
    initial_process
  = clone_mepo (fun _ _ _ => 0) (sample_package "gcc" "openmpi") initial_process.
Proof.
  apply (clone_mepo_reads_command_and_stage (fun _ _ _ => 0)
           (sample_package "gcc" "openmpi"));
    reflexivity.
Defined.

(** X11: in the cmake phase an unsupported MPI provider is reported only
    after the clone has run: when the tool exits with status 0 and the
    version probe yields a number, the phase raises
    [InstallError "Unsupported MPI stack"], the trace has gained the clone
    command and nothing else, and the configuration tool was not reached. *)
Theorem unsupported_mpi_found_after_clone
    (exit_status : string -> list string -> string -> Z)
    (gcvo : string -> string -> string) (p : Package) (st : Process) :
  exit_status (command_path (spec p) "mepo") ["clone"; "--partial=blobless"]
    (stage_source_path p) = 0 ->
  probe_ok gcvo (compiler p) = true ->
  supported_mpi p = false ->
  execute_cmake_phase exit_status gcvo p st
  = (Raise (InstallError "Unsupported MPI stack"),
     {| cwd := cwd st;
        trace := trace st ++ [Exec (command_path (spec p) "mepo")
                                ["clone"; "--partial=blobless"]
                                (stage_source_path p)] |}).
Proof.
  intros Hexit Hprobe Hmpi.
  rewrite execute_cmake_phase_run. cbv zeta. rewrite Hexit. cbn [Z.eqb].
  rewrite cmake_args_cases. rewrite <- fflags_ok_iff in Hprobe.
  destruct (fflags gcvo (compiler p)); [|discriminate].
  by rewrite Hmpi.
Qed.

Lemma unsupported_mpi_found_after_clone_witness :
  execute_cmake_phase (fun _ _ _ => 0) (prints "11.2.0")
    (sample_package "gcc" "mvapich2") initial_process
  = (Raise (InstallError "Unsupported MPI stack"),
     {| cwd := "/home/user";
        trace := [Exec "/opt/spack/mepo/bin/mepo" ["clone"; "--partial=blobless"]
                    "/tmp/stage/spack-src"] |}).
Proof.
  apply (unsupported_mpi_found_after_clone (fun _ _ _ => 0) (prints "11.2.0")
           (sample_package "gcc" "mvapich2") initial_process);
    reflexivity.
Defined.

(** ** Further properties: the environment patch *)

Lemma execute_delete_other (environ : gmap string string) (op : env_op) (var : string) :
  op_var op <> var ->
  execute (delete var environ) op = delete var (execute environ op).
Proof.
  intros Hne. destruct op as [w val|w]; simpl in *.
  - by rewrite delete_insert_ne.
  - apply delete_delete.
Qed.

Lemma foldl_execute_delete (ops : list env_op) (environ : gmap string string)
    (var : string) :
  Forall (fun op => op_var op <> var) ops ->
  foldl execute (delete var environ) ops = delete var (foldl execute environ ops).
Proof.
  intros Hops. revert environ.
  induction Hops as [|op ops Hop _ IH]; intros environ; simpl; [done|].
  by rewrite execute_delete_other, IH.
Qed.

(** X12: operations on other variables applied after the patch do not bring
    [BASEDIR] back: the environment is the one obtained by applying them
    first and unsetting [BASEDIR] last, and [BASEDIR] is absent from it. *)
Theorem unset_basedir_survives (p : Package) (env ops : list env_op)
    (environ : gmap string string) :
  Forall (fun op => op_var op <> "BASEDIR") ops ->
  apply_modifications (setup_build_environment p env ++ ops) environ
  = delete "BASEDIR" (apply_modifications (env ++ ops) environ)
  /\ apply_modifications (setup_build_environment p env ++ ops) environ !! "BASEDIR" = None.
Proof.
  intros Hops.
  assert (Heq : apply_modifications (setup_build_environment p env ++ ops) environ
                = delete "BASEDIR" (apply_modifications (env ++ ops) environ)).
  { unfold setup_build_environment, unset, apply_modifications.
    rewrite !foldl_app. cbn [foldl execute].
    by apply foldl_execute_delete. }
  split; [exact Heq|]. rewrite Heq. apply lookup_delete_eq.
Qed.

Lemma unset_basedir_survives_witness :
  apply_modifications
    (setup_build_environment (sample_package "gcc" "openmpi") [SetEnv "BASEDIR" "/opt/baselibs"]
       ++ [SetEnv "ESMA_ROOT" "/opt/esma"])
    {[ "PATH" := "/usr/bin" ]} !! "BASEDIR" = None.
Proof.
  apply (unset_basedir_survives (sample_package "gcc" "openmpi")
           [SetEnv "BASEDIR" "/opt/baselibs"] [SetEnv "ESMA_ROOT" "/opt/esma"]
           {[ "PATH" := "/usr/bin" ]}).
  repeat constructor. discriminate.
Defined.

(** ** Further properties: the cmake phase as a whole *)


